(** * chunked_media.models: resolver, deletion hook and derived accessors

    A shallow embedding of [chunked_media/models.py].  The module is glue
    over Django: the functions defined in it ([get_media_model],
    [media_delete], the properties of [AbstractMedia]) are embedded line by
    line, and the Python and Django operations they call ([str.split],
    [os.path.basename], [os.path.splitext], [apps.get_model],
    [FieldFile.delete], [FieldFile.url], signal dispatch) are embedded next to
    them with the behaviour their own documentation gives.

    Python [str] is modelled as [string] (a sequence of 8-bit characters), a
    [dict] as a [gmap], a set as a [gset]; an exception is the [Raise] branch
    of [result]. *)

From Stdlib Require Import ZArith Ascii String.
From stdpp Require Import base strings list gmap fin_maps.

Local Open Scope string_scope.

(** ** Python values, exceptions and results *)

Inductive exn : Type :=
  | AttributeError
  | ValueError
  | TypeError
  | LookupError
  | AssertionError
  | NotImplementedError
  | OSError
  | NoReverseMatch
  | ImproperlyConfigured (msg : string).

Inductive result (A : Type) : Type :=
  | Return (a : A)
  | Raise (e : exn).
Arguments Return {A} a.
Arguments Raise {A} e.

Definition rbind {A B} (r : result A) (k : A → result B) : result B :=
  match r with
  | Return a => k a
  | Raise e => Raise e
  end.

Notation "'let?' x ':=' r 'in' k" := (rbind r (λ x, k))
  (at level 10, x pattern, r at level 100, k at level 200).

(** The values a Django settings attribute can hold, as far as the resolver
    can tell them apart: only [str] and [bytes] objects have a [split]
    attribute. *)
#[warnings="-register-all"]
Inductive py_value : Type :=
  | PyNone
  | PyBool (b : bool)
  | PyInt (z : Z)
  | PyStr (s : string)
  | PyBytes (b : string)
  | PyList (l : list py_value)
  | PyTuple (l : list py_value).

(** ** Strings *)

Module Str.

(** [s.count(c)] for a one-character [c]. *)
Fixpoint count (c : ascii) (s : string) : nat :=
  match s with
  | "" => 0
  | String a s' => (if Ascii.eqb a c then 1 else 0) + count c s'
  end.

(** [s.split(c)] for a one-character separator [c]: the pieces between
    consecutive separators, empty pieces kept. *)
Fixpoint split (c : ascii) (s : string) : list string :=
  match s with
  | "" => [""]
  | String a s' =>
      if Ascii.eqb a c then "" :: split c s'
      else match split c s' with
           | [] => [String a ""]
           | p :: ps => String a p :: ps
           end
  end.

(** [s[n:]] and [s[:n]] for [0 <= n]. *)
Fixpoint drop (n : nat) (s : string) : string :=
  match n, s with
  | 0, _ => s
  | S _, "" => ""
  | S n', String _ s' => drop n' s'
  end.

Fixpoint take (n : nat) (s : string) : string :=
  match n, s with
  | 0, _ => ""
  | S _, "" => ""
  | S n', String a s' => String a (take n' s')
  end.

(** [s.rfind(c)]: the highest index of [c] in [s], or [-1]. *)
Fixpoint rfind_from (c : ascii) (s : string) (i : nat) (found : Z) : Z :=
  match s with
  | "" => found
  | String a s' =>
      rfind_from c s' (S i) (if Ascii.eqb a c then Z.of_nat i else found)
  end.

Definition rfind (c : ascii) (s : string) : Z := rfind_from c s 0 (-1).

(** [s[i:i+1]]: the character at [i] as a string, empty out of range. *)
Definition at_ (i : nat) (s : string) : string := take 1 (drop i s).

Definition lower_ascii (a : ascii) : ascii :=
  let n := nat_of_ascii a in
  if (65 <=? n)%nat && (n <=? 90)%nat then ascii_of_nat (n + 32) else a.

(** [s.lower()] on the ASCII letters. *)
Fixpoint lower (s : string) : string :=
  match s with
  | "" => ""
  | String a s' => String (lower_ascii a) (lower s')
  end.

(** Python truthiness of a [str]. *)
Definition truthy (s : string) : bool :=
  match s with "" => false | _ => true end.

End Str.

(** Truthiness of a value that is [None] or a [str]. *)
Definition truthy_opt (o : option string) : bool :=
  match o with
  | Some s => Str.truthy s
  | None => false
  end.

(** ** The type registry ([django.apps.apps]) *)

(** A model class, identified by the application it belongs to and its
    class name. *)
Record model_class : Type := ModelClass {
  app_label : string;
  object_name : string;
}.

Definition model_eqb (a b : model_class) : bool :=
  String.eqb (app_label a) (app_label b)
  && String.eqb (object_name a) (object_name b).

(** [class Media(AbstractMedia)], the built-in concrete type. *)
Definition Media : model_class := ModelClass "chunked_media" "Media".

(** [Apps.app_configs]: application label to [AppConfig.models], itself a
    dict from lower-cased model name to model class. *)
Abbreviation Apps := (gmap string (gmap string model_class)).

(** Django's [Apps.get_model(app_label, model_name)] on a ready registry:
    [self.get_app_config(app_label).get_model(model_name)], where either
    step "raises LookupError if no such application or model exists" and the
    model name is looked up lower-cased.  It never returns [None]. *)
Definition apps_get_model (apps : Apps) (label name : string)
  : result (option model_class) :=
  match apps !! label with
  | None => Raise LookupError
  | Some models =>
      match models !! Str.lower name with
      | None => Raise LookupError
      | Some cls => Return (Some cls)
      end
  end.

(** The pair [(label, name)] names [cls] in the registry. *)
Definition registered (apps : Apps) (label name : string)
    (cls : model_class) : Prop :=
  ∃ models, apps !! label = Some models ∧ models !! Str.lower name = Some cls.

(** ** get_media_model *)

(** [v.split('.')]: [AttributeError] when [v] has no [split] attribute; a
    [bytes] object has one but rejects a [str] separator. *)
Definition has_split (v : py_value) : bool :=
  match v with
  | PyStr _ | PyBytes _ => true
  | _ => false
  end.

Definition py_split_dot (v : py_value) : result (list string) :=
  match v with
  | PyStr s => Return (Str.split "." s)
  | PyBytes _ => Raise TypeError
  | _ => Raise AttributeError
  end.

(** [a, b = parts]. *)
Definition unpack2 (parts : list string) : result (string * string) :=
  match parts with
  | [a; b] => Return (a, b)
  | _ => Raise ValueError
  end.

(** [settings.NAME]; an unset name raises [AttributeError]. *)
Definition settings_getattr (settings : gmap string py_value) (name : string)
  : result py_value :=
  match settings !! name with
  | Some v => Return v
  | None => Raise AttributeError
  end.

Definition msg_bad_form : string :=
  "CHUNKED_MEDIA_MODEL must be of the form 'app_label.model_name'".

Definition msg_not_installed (v : py_value) : string :=
  "CHUNKED_MEDIA_MODEL refers to model '"
  +:+ match v with PyStr s => s | _ => "" end
  +:+ "' that has not been installed".

Section Resolver.

(** The registry lookup the resolver calls.  Its result may be [None] as
    far as the resolver's own test is concerned. *)
Variable get_model : string → string → result (option model_class).

Definition get_media_model_with (settings : gmap string py_value)
  : result model_class :=
  match
    (let? v := settings_getattr settings "CHUNKED_MEDIA_MODEL" in
     let? parts := py_split_dot v in
     unpack2 parts)
  with
  | Raise AttributeError => Return Media
  | Raise ValueError => Raise (ImproperlyConfigured msg_bad_form)
  | Raise e => Raise e
  | Return (label, name) =>
      let? media_model := get_model label name in
      match media_model with
      | None =>
          match settings_getattr settings "CHUNKED_MEDIA_MODEL" with
          | Return v => Raise (ImproperlyConfigured (msg_not_installed v))
          | Raise e => Raise e
          end
      | Some cls => Return cls
      end
  end.

End Resolver.

(** The resolver as it runs: against Django's registry. *)
Definition get_media_model (settings : gmap string py_value) (apps : Apps)
  : result model_class :=
  get_media_model_with (apps_get_model apps) settings.

(** ** os.path (posixpath) *)

Module posixpath.

(** [basename(p)]: [i = p.rfind('/') + 1; return p[i:]]. *)
Definition basename (p : string) : string :=
  let i := (Str.rfind "/" p + 1)%Z in
  Str.drop (Z.to_nat i) p.

(** The loop of [genericpath._splitext] that skips leading dots: from
    [filenameIndex], [n] positions below [dotIndex] are left to look at;
    the first character that is not a dot makes the cut at [dotIndex]. *)
Fixpoint splitext_loop (p : string) (filenameIndex n dotIndex : nat)
  : option (string * string) :=
  match n with
  | 0 => None
  | S n' =>
      if negb (String.eqb (Str.at_ filenameIndex p) ".")
      then Some (Str.take dotIndex p, Str.drop dotIndex p)
      else splitext_loop p (S filenameIndex) n' dotIndex
  end.

(** [splitext(p)] with [sep = '/'], no [altsep] and [extsep = '.']. *)
Definition splitext (p : string) : string * string :=
  let sepIndex := Str.rfind "/" p in
  let dotIndex := Str.rfind "." p in
  if (sepIndex <? dotIndex)%Z then
    let filenameIndex := Z.to_nat (sepIndex + 1) in
    match splitext_loop p filenameIndex
            (Z.to_nat dotIndex - filenameIndex) (Z.to_nat dotIndex) with
    | Some cut => cut
    | None => (p, "")
    end
  else (p, "").

(** [os.fspath] on a name that is a [str] or [None]. *)
Definition fspath (p : option string) : result string :=
  match p with
  | Some s => Return s
  | None => Raise TypeError
  end.

End posixpath.

(** ** Stored files: the storage backend and [FieldFile] *)

(** What the outside can observe of a run: calls that reach the storage
    backend, model-level saves and row removals, in order. *)
Inductive event : Type :=
  | StorageDelete (name : string)
  | InstanceSave (pk : Z)
  | RowDelete (cls : model_class) (pk : Z).

(** The binary resources held by the storage backend, by name, and the
    events so far. *)
Record world : Type := World {
  resources : gset string;
  trace : list event;
}.

Definition log (e : event) (w : world) : world :=
  World (resources w) (trace w ++ [e]).

(** The storage backend interface ([django.core.files.storage.Storage]), as
    far as this module uses it: [delete(name)] and [url(name)].  [url]
    returns a [str] or [None]. *)
Record Storage : Type := {
  storage_delete : string → gset string → result (gset string);
  storage_url : string → result (option string);
}.

Module FieldFile.

(** [name] is the reference to the stored resource: a [str], empty when no
    file is set, or [None]. *)
Record t : Type := Make {
  name : option string;
  _committed : bool;
}.

(** [__bool__]: [bool(self.name)]. *)
Definition bool (f : t) : Datatypes.bool := truthy_opt (name f).

End FieldFile.

Module AbstractMedia.

(** An instance of a concrete subclass [cls] of [AbstractMedia]. *)
Record t : Type := Make {
  cls : model_class;
  id : Z;
  title : string;
  file : FieldFile.t;
  type : string;
  width : option N;
  height : option N;
  thumbnail : FieldFile.t;
  created_at : Z;
  uploaded_by_user : option Z;
  tags : gset string;
}.

End AbstractMedia.

(** The two [FileField] attributes of the model. *)
Inductive file_attr : Type := attr_file | attr_thumbnail.

Definition getattr_file (a : file_attr) (i : AbstractMedia.t) : FieldFile.t :=
  match a with
  | attr_file => AbstractMedia.file i
  | attr_thumbnail => AbstractMedia.thumbnail i
  end.

Definition setattr_file (a : file_attr) (f : FieldFile.t)
    (i : AbstractMedia.t) : AbstractMedia.t :=
  match a with
  | attr_file =>
      AbstractMedia.Make (AbstractMedia.cls i) (AbstractMedia.id i)
        (AbstractMedia.title i) f (AbstractMedia.type i)
        (AbstractMedia.width i) (AbstractMedia.height i)
        (AbstractMedia.thumbnail i) (AbstractMedia.created_at i)
        (AbstractMedia.uploaded_by_user i) (AbstractMedia.tags i)
  | attr_thumbnail =>
      AbstractMedia.Make (AbstractMedia.cls i) (AbstractMedia.id i)
        (AbstractMedia.title i) (AbstractMedia.file i) (AbstractMedia.type i)
        (AbstractMedia.width i) (AbstractMedia.height i)
        f (AbstractMedia.created_at i)
        (AbstractMedia.uploaded_by_user i) (AbstractMedia.tags i)
  end.

(** Code that runs on one instance and the world: it returns or raises, and
    what it did before raising stays done. *)
Definition action (A : Type) : Type :=
  AbstractMedia.t * world → result A * (AbstractMedia.t * world).

Definition skip : action unit := λ st, (Return (), st).

Definition seq {A} (c1 : action unit) (c2 : action A) : action A :=
  λ st,
    match c1 st with
    | (Return _, st') => c2 st'
    | (Raise e, st') => (Raise e, st')
    end.

Infix ">>>" := seq (at level 65, right associativity).

(** [instance.save()], seen from outside. *)
Definition instance_save : action unit :=
  λ '(i, w), (Return (), (i, log (InstanceSave (AbstractMedia.id i)) w)).

Section Files.

Variable storage : Storage.

(** Django's [FieldFile.delete(save)]:
    [if not self: return], then [self.storage.delete(self.name)], then
    [self.name = None] on the field file and on the instance,
    [self._committed = False], and [if save: self.instance.save()]. *)
Definition FieldFile_delete (a : file_attr) (save : bool) : action unit :=
  λ '(i, w),
    match FieldFile.name (getattr_file a i) with
    | Some n =>
        if Str.truthy n then
          let w1 := log (StorageDelete n) w in
          match storage_delete storage n (resources w1) with
          | Raise e => (Raise e, (i, w1))
          | Return res =>
              let i' := setattr_file a (FieldFile.Make None false) i in
              let st := (i', World res (trace w1)) in
              if save then instance_save st else (Return (), st)
          end
        else (Return (), (i, w))
    | None => (Return (), (i, w))
    end.

(** Django's [FieldFile.url]: [self._require_file()], which raises
    [ValueError] when no file is set, then [self.storage.url(self.name)]. *)
Definition FieldFile_url (f : FieldFile.t) : result (option string) :=
  match FieldFile.name f with
  | Some n => if Str.truthy n then storage_url storage n else Raise ValueError
  | None => Raise ValueError
  end.

(** ** media_delete *)

(** [instance.file.delete(False)] then [instance.thumbnail.delete(False)]. *)
Definition media_delete (sender : model_class) : action unit :=
  FieldFile_delete attr_file false >>>
  FieldFile_delete attr_thumbnail false.

(** ** Signal dispatch and row removal *)

(** A connected receiver: [sender] is the class it was connected for, or
    [None] for every sender. *)
Record receiver : Type := {
  receiver_sender : option model_class;
  receiver_call : model_class → action unit;
}.

(** [@receiver(pre_delete, sender=Media)] is the module's one connection
    to [pre_delete]. *)
Definition pre_delete_receivers : list receiver :=
  [ {| receiver_sender := Some Media; receiver_call := media_delete |} ].

(** [Signal._live_receivers(sender)]: the receivers connected for this
    sender or for every sender. *)
Definition live_receivers (rs : list receiver) (sender : model_class)
  : list receiver :=
  List.filter (λ r, match receiver_sender r with
                    | Some s => model_eqb s sender
                    | None => true
                    end) rs.

(** [Signal.send(sender, instance=...)]: calls each live receiver in turn;
    an exception from one of them propagates. *)
Fixpoint call_all (rs : list receiver) (sender : model_class)
  : action unit :=
  match rs with
  | [] => skip
  | r :: rs' => receiver_call r sender >>> call_all rs' sender
  end.

Definition send (rs : list receiver) (sender : model_class) : action unit :=
  call_all (live_receivers rs sender) sender.

(** The removal of the row itself. *)
Definition remove_row : action unit :=
  λ '(i, w),
    (Return (),
     (i, log (RowDelete (AbstractMedia.cls i) (AbstractMedia.id i)) w)).

(** Django's [Model.delete()] for one instance of a concrete type that
    derives from [AbstractMedia] directly ([Media] itself, or a host's own
    subclass of the abstract base): [pre_delete] is sent with the
    instance's class as sender, then the row is removed. *)
Definition Model_delete : action unit :=
  λ '(i, w),
    (send pre_delete_receivers (AbstractMedia.cls i) >>> remove_row) (i, w).

End Files.

(** ** Derived accessors of [AbstractMedia] *)

Definition octet_stream : string := "application/octet-stream".

(** [x or y] where [x] is [None] or a [str] and [y] is only evaluated when
    [x] is falsy. *)
Definition py_or (x : option string) (y : result string) : result string :=
  match x with
  | Some s => if Str.truthy s then Return s else y
  | None => y
  end.

Section Accessors.

Variable storage : Storage.

(** [mimetypes.guess_type(name)]: the pair [(type, encoding)], each a
    [str] or [None], from the MIME tables of the running interpreter. *)
Variable guess_type : string → option string * option string.

(** [django.urls.reverse(viewname)] against the project's URL
    configuration. *)
Variable reverse : string → result string.

Definition filename (i : AbstractMedia.t) : result string :=
  let? p := posixpath.fspath (FieldFile.name (AbstractMedia.file i)) in
  Return (posixpath.basename p).

Definition thumbnail_filename (i : AbstractMedia.t) : result string :=
  let? p := posixpath.fspath (FieldFile.name (AbstractMedia.thumbnail i)) in
  Return (posixpath.basename p).

Definition file_extension (i : AbstractMedia.t) : result string :=
  let? f := filename i in
  Return (Str.drop 1 (posixpath.splitext f).2).

Definition url (i : AbstractMedia.t) : result (option string) :=
  FieldFile_url storage (AbstractMedia.file i).

Definition sources (i : AbstractMedia.t)
  : result (list (gmap string string)) :=
  let? u := url i in
  let? src := py_or u (reverse "chunked_media:index") in
  let? f := filename i in
  let? ty := py_or (guess_type f).1 (Return octet_stream) in
  Return [ ({[ "src" := src; "type" := ty ]} : gmap string string) ].

End Accessors.

(** ** Collaborators used in the examples *)

(** A backend whose [delete] removes the named resource (a missing one is
    not an error) and refuses an empty name, as [FileSystemStorage] does,
    and whose [url] is the base address followed by the name. *)
Definition plain_delete (n : string) (res : gset string)
  : result (gset string) :=
  if Str.truthy n then Return (res ∖ {[ n ]}) else Raise AssertionError.

Definition plain_storage (base_url : string) : Storage :=
  {| storage_delete := plain_delete;
     storage_url := λ n, Return (Some (base_url +:+ n)) |}.

(** A backend that serves no addresses: [url] returns [None]. *)
Definition private_storage : Storage :=
  {| storage_delete := plain_delete;
     storage_url := λ _, Return None |}.

(** A backend whose [delete] always fails. *)
Definition readonly_storage : Storage :=
  {| storage_delete := λ _ _, Raise NotImplementedError;
     storage_url := λ n, Return (Some n) |}.

(** The contract of a backend that can delete: a named resource is removed
    and nothing else is. *)
Definition delete_removes (storage : Storage) : Prop :=
  ∀ n res, Str.truthy n = true →
    storage_delete storage n res = Return (res ∖ {[ n ]}).

(** A few rows of the interpreter's MIME table, and the lookup by extension
    that [guess_type] does for a plain file name. *)
Definition types_map : gmap string string :=
  {[ ".mp3" := "audio/mpeg"; ".mp4" := "video/mp4"; ".ogv" := "video/ogg";
     ".wav" := "audio/x-wav"; ".webm" := "video/webm" ]}.

Definition guess_type_by_ext (name : string) : option string * option string :=
  let ext := (posixpath.splitext name).2 in
  match types_map !! ext with
  | Some t => (Some t, None)
  | None => (types_map !! Str.lower ext, None)
  end.

(** A URL configuration that routes the index view. *)
Definition urlconf : gmap string string :=
  {[ "chunked_media:index" := "/admin/media/" ]}.

Definition reverse_urlconf (viewname : string) : result string :=
  match urlconf !! viewname with
  | Some path => Return path
  | None => Raise NoReverseMatch
  end.

(** A host application's own subclass of [AbstractMedia], and a registry
    holding it next to the built-in type. *)
Definition CustomMedia : model_class := ModelClass "myapp" "CustomMedia".

Definition sample_apps : Apps :=
  {[ "chunked_media" := {[ "media" := Media ]};
     "myapp" := {[ "custommedia" := CustomMedia ]} ]}.

Definition sample_media (c : model_class) (file thumbnail : option string)
  : AbstractMedia.t :=
  AbstractMedia.Make c 7 "A clip" (FieldFile.Make file true) "video"
    (Some 640%N) (Some 480%N) (FieldFile.Make thumbnail true) 1577836800
    None {[ "demo" ]}.

Definition sample_world : world :=
  World {[ "media/clip.mp4"; "media_thumbnails/clip.jpg"; "media/song.mp3" ]} [].

(** The instance with the file attribute [a] cleared, as a successful
    [FieldFile.delete] leaves it. *)
Definition cleared (a : file_attr) (i : AbstractMedia.t) : AbstractMedia.t :=
  setattr_file a (FieldFile.Make None false) i.

(** Deleting the instance runs the hook and then removes the row: the
    whole of [Model.delete()] is [media_delete] followed by the row
    removal. *)
Definition hook_runs_before_row_removal (storage : Storage)
    (i : AbstractMedia.t) (w : world) : Prop :=
  Model_delete storage (i, w)
  = (media_delete storage (AbstractMedia.cls i) >>> remove_row) (i, w).

(** The string consists of dots only (the empty string included). *)
Fixpoint all_dots (s : string) : bool :=
  match s with
  | "" => true
  | String a s' => Ascii.eqb a "." && all_dots s'
  end.

(** The names [FieldFile.delete] hands to the backend for a field file: its
    name when a file is set, nothing otherwise. *)
Definition names_to_delete (f : FieldFile.t) : list string :=
  match FieldFile.name f with
  | Some n => if Str.truthy n then [n] else []
  | None => []
  end.

(** The names the hook hands to the backend for an instance, in order. *)
Definition hook_names (i : AbstractMedia.t) : list string :=
  names_to_delete (AbstractMedia.file i)
  ++ names_to_delete (AbstractMedia.thumbnail i).

(** Everything an instance holds besides its two file attributes. *)
Definition other_fields (i : AbstractMedia.t) :=
  (AbstractMedia.cls i, AbstractMedia.id i, AbstractMedia.title i,
   AbstractMedia.type i, AbstractMedia.width i, AbstractMedia.height i,
   AbstractMedia.created_at i, AbstractMedia.uploaded_by_user i,
   AbstractMedia.tags i).

(** The backend's answers to a sequence of deletions, each on the resources
    the former one left, up to the first that raises: the names asked for,
    the resources left, and the exception if one was raised. *)
Fixpoint delete_each (storage : Storage) (ns : list string)
    (res : gset string) : list string * gset string * option exn :=
  match ns with
  | [] => ([], res, None)
  | n :: ns' =>
      match storage_delete storage n res with
      | Return res' =>
          let '(asked, res'', err) := delete_each storage ns' res' in
          (n :: asked, res'', err)
      | Raise e => ([n], res, Some e)
      end
  end.

(** What a caller sees of a run that ended with [err]. *)
Definition outcome (err : option exn) : result unit :=
  match err with
  | None => Return ()
  | Some e => Raise e
  end.

(** * Properties *)

(** ** Facts about the string operations *)

Section StrFacts.

Variable c : ascii.

Lemma split_not_nil s : Str.split c s ≠ [].
Proof.
  destruct s as [|a s]; simpl; [done|].
  destruct (Ascii.eqb a c); [done|].
  by destruct (Str.split c s).
Qed.

(** [split] returns one piece more than there are separators. *)
Lemma split_length s : length (Str.split c s) = S (Str.count c s).
Proof.
  induction s as [|a s IH]; simpl; [done|].
  destruct (Ascii.eqb a c); simpl; [by rewrite IH|].
  destruct (Str.split c s) as [|p ps] eqn:E; simpl in *; lia.
Qed.

Lemma count_app s1 s2 :
  Str.count c (s1 +:+ s2) = Str.count c s1 + Str.count c s2.
Proof. induction s1 as [|a s1 IH]; simpl; [done|]. rewrite IH. lia. Qed.

Lemma count_sep_cons s : Str.count c (String c s) = S (Str.count c s).
Proof. simpl. by rewrite Ascii.eqb_refl. Qed.

(** A string without separator is its own single piece. *)
Lemma split_no_sep s : Str.count c s = 0 → Str.split c s = [s].
Proof.
  induction s as [|a s IH]; simpl; [done|].
  destruct (Ascii.eqb a c); [discriminate|].
  intros H. by rewrite IH.
Qed.

(** The first piece ends at the first separator. *)
Lemma split_app_sep s1 s2 :
  Str.count c s1 = 0 →
  Str.split c (s1 +:+ String c s2) = s1 :: Str.split c s2.
Proof.
  induction s1 as [|a s1 IH]; simpl.
  - intros _. by rewrite Ascii.eqb_refl.
  - destruct (Ascii.eqb a c); [discriminate|].
    intros H. by rewrite IH.
Qed.

Lemma rfind_from_no_sep s i found :
  Str.count c s = 0 → Str.rfind_from c s i found = found.
Proof.
  revert i found. induction s as [|a s IH]; simpl; [done|].
  intros i found. destruct (Ascii.eqb a c); [discriminate|].
  intros H. by apply IH.
Qed.

Lemma rfind_no_sep s : Str.count c s = 0 → Str.rfind c s = (-1)%Z.
Proof. apply rfind_from_no_sep. Qed.

End StrFacts.

(** A string with exactly one dot, cut at that dot, splits into the two
    sides of the cut. *)
Lemma split_dotted_pair s a m :
  Str.count "." s = 1 → s = a +:+ "." +:+ m → Str.split "." s = [a; m].
Proof.
  intros Hc ->. rewrite count_app in Hc.
  change ("." +:+ m) with (String "." m) in *.
  rewrite count_sep_cons in Hc.
  rewrite split_app_sep by lia. by rewrite split_no_sep by lia.
Qed.

(** Unpacking into two names succeeds on exactly two pieces. *)
Lemma unpack2_length parts :
  length parts ≠ 2 → unpack2 parts = Raise ValueError.
Proof. destruct parts as [|a [|b [|? ?]]]; simpl; done. Qed.

Lemma model_eqb_eq a b : model_eqb a b = true ↔ a = b.
Proof.
  destruct a as [la na], b as [lb nb]. unfold model_eqb; simpl.
  rewrite andb_true_iff, !String.eqb_eq. split.
  - by intros [-> ->].
  - intros [= -> ->]. done.
Qed.

(** ** The resolver *)

(** What the resolver does with each answer of the registry, for a setting
    that is a dotted pair. *)
Lemma get_media_model_with_pair get_model settings s a m :
  settings !! "CHUNKED_MEDIA_MODEL" = Some (PyStr s) →
  Str.split "." s = [a; m] →
  get_media_model_with get_model settings =
    match get_model a m with
    | Return (Some cls) => Return cls
    | Return None => Raise (ImproperlyConfigured (msg_not_installed (PyStr s)))
    | Raise e => Raise e
    end.
Proof.
  intros Hs Hsplit. unfold get_media_model_with, settings_getattr.
  rewrite Hs. simpl. rewrite Hsplit. simpl.
  by destruct (get_model a m) as [[cls|]|e].
Qed.

(** C2: a setting with exactly one dot whose two sides name a registered
    type resolves to that type. *)
Theorem get_media_model_registered settings apps s a m cls :
  settings !! "CHUNKED_MEDIA_MODEL" = Some (PyStr s) →
  Str.count "." s = 1 →
  s = a +:+ "." +:+ m →
  registered apps a m cls →
  get_media_model settings apps = Return cls.
Proof.
  intros Hs Hc Hpair (models & Happ & Hmodel).
  unfold get_media_model.
  rewrite (get_media_model_with_pair _ _ s a m Hs (split_dotted_pair _ _ _ Hc Hpair)).
  unfold apps_get_model. by rewrite Happ, Hmodel.
Qed.

Lemma get_media_model_registered_witness :
  get_media_model {[ "CHUNKED_MEDIA_MODEL" := PyStr "myapp.CustomMedia" ]}
    sample_apps = Return CustomMedia.
Proof.
  apply (get_media_model_registered _ _ "myapp.CustomMedia" "myapp" "CustomMedia").
  - reflexivity.
  - reflexivity.
  - reflexivity.
  - exists {[ "custommedia" := CustomMedia ]}. split; reflexivity.
Defined.

(** C3: a setting that is a string without exactly one dot makes the
    resolver raise [ImproperlyConfigured]; no type is returned. *)
Theorem get_media_model_malformed settings apps s :
  settings !! "CHUNKED_MEDIA_MODEL" = Some (PyStr s) →
  Str.count "." s ≠ 1 →
  get_media_model settings apps = Raise (ImproperlyConfigured msg_bad_form)
  ∧ ∀ cls, get_media_model settings apps ≠ Return cls.
Proof.
  intros Hs Hc.
  assert (get_media_model settings apps
          = Raise (ImproperlyConfigured msg_bad_form)) as ->.
  { unfold get_media_model, get_media_model_with, settings_getattr.
    rewrite Hs. simpl. rewrite unpack2_length; [done|].
    rewrite split_length. lia. }
  split; [done|]. by intros cls.
Qed.

Lemma get_media_model_malformed_witness :
  get_media_model {[ "CHUNKED_MEDIA_MODEL" := PyStr "a.b.c" ]} sample_apps
    = Raise (ImproperlyConfigured msg_bad_form)
  ∧ ∀ cls, get_media_model {[ "CHUNKED_MEDIA_MODEL" := PyStr "a.b.c" ]}
             sample_apps ≠ Return cls.
Proof.
  apply (get_media_model_malformed _ _ "a.b.c").
  - reflexivity.
  - simpl. lia.
Defined.

(** The resolver's own test for a missing type: when the lookup answers
    [None], it raises [ImproperlyConfigured]. *)
Lemma get_media_model_with_None get_model settings s a m :
  settings !! "CHUNKED_MEDIA_MODEL" = Some (PyStr s) →
  Str.split "." s = [a; m] →
  get_model a m = Return None →
  get_media_model_with get_model settings
    = Raise (ImproperlyConfigured (msg_not_installed (PyStr s))).
Proof.
  intros Hs Hsplit Hnone.
  by rewrite (get_media_model_with_pair _ _ s a m Hs Hsplit), Hnone.
Qed.

(** Django's registry never answers [None]. *)
Lemma apps_get_model_not_None apps label name :
  apps_get_model apps label name ≠ Return None.
Proof.
  unfold apps_get_model.
  destruct (apps !! label) as [models|]; [|done].
  by destruct (models !! Str.lower name).
Qed.

(** Against Django's registry, a dotted pair that names no registered type
    makes the resolver end with the registry's [LookupError]. *)
Lemma get_media_model_unregistered settings apps s a m :
  settings !! "CHUNKED_MEDIA_MODEL" = Some (PyStr s) →
  Str.count "." s = 1 →
  s = a +:+ "." +:+ m →
  (∀ cls, ¬ registered apps a m cls) →
  get_media_model settings apps = Raise LookupError.
Proof.
  intros Hs Hc Hpair Hnot. unfold get_media_model.
  rewrite (get_media_model_with_pair _ _ s a m Hs (split_dotted_pair _ _ _ Hc Hpair)).
  unfold apps_get_model.
  destruct (apps !! a) as [models|] eqn:Happ; [|done].
  destruct (models !! Str.lower m) as [cls|] eqn:Hmodel; [|done].
  destruct (Hnot cls). by exists models.
Qed.

(** C4: the setting ["nosuchapp.Clip"] is a well-formed dotted pair that
    names no registered type; the resolver ends with [LookupError], not with
    [ImproperlyConfigured]. *)
Theorem get_media_model_unregistered_LookupError :
  get_media_model {[ "CHUNKED_MEDIA_MODEL" := PyStr "nosuchapp.Clip" ]}
    sample_apps = Raise LookupError
  ∧ Str.count "." "nosuchapp.Clip" = 1
  ∧ ∀ cls, ¬ registered sample_apps "nosuchapp" "Clip" cls.
Proof.
  split; [reflexivity|]. split; [reflexivity|].
  intros cls (models & Happ & _). discriminate Happ.
Qed.

(** C5: with the setting absent the resolver returns the built-in
    [Media]. *)
Theorem get_media_model_absent settings apps :
  settings !! "CHUNKED_MEDIA_MODEL" = None →
  get_media_model settings apps = Return Media.
Proof.
  intros Hs. unfold get_media_model, get_media_model_with, settings_getattr.
  by rewrite Hs.
Qed.

Lemma get_media_model_absent_witness :
  get_media_model ∅ sample_apps = Return Media.
Proof. apply get_media_model_absent. reflexivity. Defined.

(** C10: a setting that is present but has no [split] attribute (it is not
    a string) makes the resolver return the built-in [Media], through the
    handler that also serves the absent setting; no error is raised. *)
Theorem get_media_model_no_split settings apps v :
  settings !! "CHUNKED_MEDIA_MODEL" = Some v →
  has_split v = false →
  py_split_dot v = Raise AttributeError
  ∧ get_media_model settings apps = Return Media.
Proof.
  intros Hs Hv.
  assert (py_split_dot v = Raise AttributeError) as Hsplit
    by (by destruct v).
  split; [done|].
  unfold get_media_model, get_media_model_with, settings_getattr.
  rewrite Hs. simpl. by rewrite Hsplit.
Qed.

Lemma get_media_model_no_split_witness :
  py_split_dot (PyInt 42) = Raise AttributeError
  ∧ get_media_model {[ "CHUNKED_MEDIA_MODEL" := PyInt 42 ]} sample_apps
    = Return Media.
Proof.
  apply (get_media_model_no_split _ _ (PyInt 42)); reflexivity.
Defined.

(** A [bytes] setting has a [split] attribute, which rejects the [str]
    separator: the [TypeError] is not handled. *)
Lemma get_media_model_bytes settings apps b :
  settings !! "CHUNKED_MEDIA_MODEL" = Some (PyBytes b) →
  get_media_model settings apps = Raise TypeError.
Proof.
  intros Hs. unfold get_media_model, get_media_model_with, settings_getattr.
  by rewrite Hs.
Qed.

(** ** The deletion hook *)

Section HookFacts.

Variable storage : Storage.

(** [FieldFile.delete] on an attribute that holds a file: one call to the
    backend; on success the attribute is cleared, and the instance is
    saved only when [save] is set. *)
Lemma FieldFile_delete_set a save i w n :
  FieldFile.name (getattr_file a i) = Some n →
  Str.truthy n = true →
  FieldFile_delete storage a save (i, w) =
    match storage_delete storage n (resources w) with
    | Raise e => (Raise e, (i, log (StorageDelete n) w))
    | Return res =>
        let st := (cleared a i, World res (trace w ++ [StorageDelete n])) in
        if save then instance_save st else (Return (), st)
    end.
Proof. intros Hn Ht. unfold FieldFile_delete. by rewrite Hn, Ht. Qed.

(** [FieldFile.delete] on an attribute without file does nothing. *)
Lemma FieldFile_delete_unset a save i w :
  FieldFile.bool (getattr_file a i) = false →
  FieldFile_delete storage a save (i, w) = (Return (), (i, w)).
Proof.
  unfold FieldFile.bool, truthy_opt, FieldFile_delete.
  destruct (FieldFile.name (getattr_file a i)) as [n|]; [|done].
  by intros ->.
Qed.

Lemma thumbnail_cleared_file i :
  getattr_file attr_thumbnail (cleared attr_file i)
  = getattr_file attr_thumbnail i.
Proof. reflexivity. Qed.

End HookFacts.

(** C1: for an instance with both [file] and [thumbnail] set, the hook
    calls the backend's delete for the file first and for the thumbnail
    second, and nothing else: no save of the instance.  If the run raises,
    it stopped after one of these calls.  On a backend whose delete removes
    the named resource, both resources are gone afterwards. *)
Theorem media_delete_file_then_thumbnail storage sender i w f t :
  FieldFile.name (AbstractMedia.file i) = Some f → Str.truthy f = true →
  FieldFile.name (AbstractMedia.thumbnail i) = Some t → Str.truthy t = true →
  (∃ r i' res evs,
      media_delete storage sender (i, w) = (r, (i', World res (trace w ++ evs)))
      ∧ (r = Return () ∧ evs = [StorageDelete f; StorageDelete t]
         ∨ ∃ e, r = Raise e
                ∧ (evs = [StorageDelete f]
                   ∨ evs = [StorageDelete f; StorageDelete t])))
  ∧ (delete_removes storage →
     media_delete storage sender (i, w)
     = (Return (),
        (cleared attr_thumbnail (cleared attr_file i),
         World (resources w ∖ {[ f ]} ∖ {[ t ]})
               (trace w ++ [StorageDelete f; StorageDelete t])))).
Proof.
  intros Hf Hft Ht Htt.
  assert (∀ res,
    FieldFile_delete storage attr_thumbnail false
      (cleared attr_file i, World res (trace w ++ [StorageDelete f]))
    = match storage_delete storage t res with
      | Raise e =>
          (Raise e, (cleared attr_file i,
                     World res (trace w ++ [StorageDelete f; StorageDelete t])))
      | Return res' =>
          (Return (), (cleared attr_thumbnail (cleared attr_file i),
                       World res' (trace w ++ [StorageDelete f; StorageDelete t])))
      end) as Hthumb.
  { intros res.
    rewrite (FieldFile_delete_set storage attr_thumbnail false _ _ t)
      by (rewrite ?thumbnail_cleared_file; done).
    simpl. unfold log. simpl. rewrite <- app_assoc. simpl.
    by destruct (storage_delete storage t res). }
  unfold media_delete, seq.
  rewrite (FieldFile_delete_set storage attr_file false i w f Hf Hft).
  split.
  - destruct (storage_delete storage f (resources w)) as [res|e] eqn:Hdel;
      cbv beta iota zeta.
    + rewrite Hthumb.
      destruct (storage_delete storage t res) as [res'|e'].
      * eexists _, _, _, _. split; [reflexivity|]. by left.
      * eexists _, _, _, _. split; [reflexivity|]. right. eauto.
    + eexists _, _, _, _. split; [reflexivity|]. right. eauto.
  - intros Hok. rewrite (Hok f _ Hft). cbv beta iota zeta.
    rewrite Hthumb. by rewrite (Hok t _ Htt).
Qed.

Lemma plain_storage_delete_removes base : delete_removes (plain_storage base).
Proof. intros n res Hn. simpl. unfold plain_delete. by rewrite Hn. Qed.

Lemma media_delete_file_then_thumbnail_witness :
  media_delete (plain_storage "/m/") Media
    (sample_media Media (Some "media/clip.mp4")
       (Some "media_thumbnails/clip.jpg"), sample_world)
  = (Return (),
     (cleared attr_thumbnail
        (cleared attr_file
           (sample_media Media (Some "media/clip.mp4")
              (Some "media_thumbnails/clip.jpg"))),
      World (resources sample_world ∖ {[ "media/clip.mp4" ]}
               ∖ {[ "media_thumbnails/clip.jpg" ]})
        [StorageDelete "media/clip.mp4";
         StorageDelete "media_thumbnails/clip.jpg"])).
Proof.
  apply (proj2 (media_delete_file_then_thumbnail (plain_storage "/m/") Media
                  (sample_media Media (Some "media/clip.mp4")
                     (Some "media_thumbnails/clip.jpg")) sample_world
                  "media/clip.mp4" "media_thumbnails/clip.jpg"
                  eq_refl eq_refl eq_refl eq_refl)).
  apply plain_storage_delete_removes.
Defined.

(** The hook itself on an instance with [file] set and no thumbnail: its
    one and only call to the backend is the delete of the file, the
    thumbnail attribute is left as it was, and on a backend whose delete
    removes the named resource exactly the file is gone afterwards. *)
Theorem media_delete_file_only storage sender i w f :
  FieldFile.name (AbstractMedia.file i) = Some f → Str.truthy f = true →
  FieldFile.bool (AbstractMedia.thumbnail i) = false →
  (∃ r i' res,
      media_delete storage sender (i, w)
      = (r, (i', World res (trace w ++ [StorageDelete f])))
      ∧ AbstractMedia.thumbnail i' = AbstractMedia.thumbnail i)
  ∧ (delete_removes storage →
     media_delete storage sender (i, w)
     = (Return (),
        (cleared attr_file i,
         World (resources w ∖ {[ f ]}) (trace w ++ [StorageDelete f])))).
Proof.
  intros Hf Hft Hthumb.
  unfold media_delete, seq.
  rewrite (FieldFile_delete_set storage attr_file false i w f Hf Hft).
  split.
  - destruct (storage_delete storage f (resources w)) as [res|e];
      cbv beta iota zeta.
    + rewrite FieldFile_delete_unset by done. by eexists _, _, _.
    + by eexists _, _, _.
  - intros Hok. rewrite (Hok f _ Hft). cbv beta iota zeta.
    by rewrite FieldFile_delete_unset.
Qed.

Lemma media_delete_file_only_witness :
  media_delete (plain_storage "/m/") Media
    (sample_media Media (Some "media/song.mp3") (Some ""), sample_world)
  = (Return (),
     (cleared attr_file (sample_media Media (Some "media/song.mp3") (Some "")),
      World (resources sample_world ∖ {[ "media/song.mp3" ]})
        [StorageDelete "media/song.mp3"])).
Proof.
  apply (proj2 (media_delete_file_only (plain_storage "/m/") Media
                  (sample_media Media (Some "media/song.mp3") (Some ""))
                  sample_world "media/song.mp3" eq_refl eq_refl eq_refl)).
  apply plain_storage_delete_removes.
Defined.

(** The resources named by the two deletions are no longer stored. *)
Lemma deleted_resources_gone (res : gset string) f t :
  (f ∉ res ∖ {[ f ]} ∖ {[ t ]}) ∧ (t ∉ res ∖ {[ f ]} ∖ {[ t ]}).
Proof.
  split; intros H.
  - apply elem_of_difference in H as [H _].
    apply elem_of_difference in H as [_ H]. by apply H, elem_of_singleton.
  - apply elem_of_difference in H as [_ H]. by apply H, elem_of_singleton.
Qed.

(** On a backend whose delete fails, the hook stops at the file: the
    thumbnail is neither asked for nor removed. *)
Example media_delete_readonly :
  media_delete readonly_storage Media
    (sample_media Media (Some "media/clip.mp4")
       (Some "media_thumbnails/clip.jpg"), sample_world)
  = (Raise NotImplementedError,
     (sample_media Media (Some "media/clip.mp4")
        (Some "media_thumbnails/clip.jpg"),
      World (resources sample_world) [StorageDelete "media/clip.mp4"])).
Proof. reflexivity. Qed.

(** With [save] set, [FieldFile.delete] ends with a save of the instance;
    the hook passes [False]. *)
Example FieldFile_delete_save :
  (FieldFile_delete (plain_storage "/m/") attr_file true
     (sample_media Media (Some "media/clip.mp4") (Some ""), sample_world)).2.2
  = World (resources sample_world ∖ {[ "media/clip.mp4" ]})
      [StorageDelete "media/clip.mp4"; InstanceSave 7].
Proof. reflexivity. Qed.

(** ** Dispatch of the hook *)

Lemma live_receivers_Media storage :
  live_receivers (pre_delete_receivers storage) Media
  = pre_delete_receivers storage.
Proof. reflexivity. Qed.

Lemma live_receivers_other storage sender :
  sender ≠ Media →
  live_receivers (pre_delete_receivers storage) sender = [].
Proof.
  intros Hne. unfold live_receivers, pre_delete_receivers. simpl.
  destruct (model_eqb Media sender) eqn:E; [|done].
  apply model_eqb_eq in E. by destruct Hne.
Qed.

Lemma seq_skip_r (c : action unit) st : (c >>> skip) st = c st.
Proof.
  unfold seq, skip. destruct (c st) as [[[]|e] st']; done.
Qed.

(** C6, as the code has it: deleting an instance of the built-in [Media]
    runs the hook and then removes the row; deleting an instance of any
    other concrete type removes the row without running the hook. *)
Theorem Model_delete_hook_for_Media_only storage i w :
  (AbstractMedia.cls i = Media →
   Model_delete storage (i, w)
   = (media_delete storage Media >>> remove_row) (i, w))
  ∧ (AbstractMedia.cls i ≠ Media →
     Model_delete storage (i, w) = remove_row (i, w)).
Proof.
  split.
  - intros Hcls. unfold Model_delete, send. rewrite Hcls.
    rewrite live_receivers_Media. simpl.
    unfold seq at 1 3. rewrite seq_skip_r. done.
  - intros Hcls. unfold Model_delete, send.
    by rewrite live_receivers_other.
Qed.

Lemma Model_delete_hook_for_Media_only_witness :
  Model_delete (plain_storage "/m/")
    (sample_media Media (Some "media/clip.mp4") (Some ""), sample_world)
  = (media_delete (plain_storage "/m/") Media >>> remove_row)
      (sample_media Media (Some "media/clip.mp4") (Some ""), sample_world)
  ∧ Model_delete (plain_storage "/m/")
      (sample_media CustomMedia (Some "media/clip.mp4") (Some ""), sample_world)
    = remove_row
        (sample_media CustomMedia (Some "media/clip.mp4") (Some ""),
         sample_world).
Proof.
  split.
  - apply (proj1 (Model_delete_hook_for_Media_only (plain_storage "/m/")
                    (sample_media Media (Some "media/clip.mp4") (Some ""))
                    sample_world)).
    reflexivity.
  - apply (proj2 (Model_delete_hook_for_Media_only (plain_storage "/m/")
                    (sample_media CustomMedia (Some "media/clip.mp4") (Some ""))
                    sample_world)).
    discriminate.
Defined.

(** With the setting naming the host's [CustomMedia], the resolver returns
    that type, and deleting an instance of it removes the row while both
    stored resources stay: the hook has not run. *)
Lemma host_type_delete_skips_hook :
  get_media_model {[ "CHUNKED_MEDIA_MODEL" := PyStr "myapp.CustomMedia" ]}
    sample_apps = Return CustomMedia
  ∧ Model_delete (plain_storage "/m/")
      (sample_media CustomMedia (Some "media/clip.mp4")
         (Some "media_thumbnails/clip.jpg"), sample_world)
    = (Return (),
       (sample_media CustomMedia (Some "media/clip.mp4")
          (Some "media_thumbnails/clip.jpg"),
        World (resources sample_world) [RowDelete CustomMedia 7]))
  ∧ ¬ hook_runs_before_row_removal (plain_storage "/m/")
        (sample_media CustomMedia (Some "media/clip.mp4")
           (Some "media_thumbnails/clip.jpg")) sample_world.
Proof.
  split; [reflexivity|]. split; [reflexivity|].
  unfold hook_runs_before_row_removal. intros Heq.
  apply (f_equal (λ out, trace out.2.2)) in Heq.
  vm_compute in Heq. discriminate Heq.
Qed.

(** ** Derived accessors *)

Lemma rfind_from_lower_bound c s i found :
  (-1 ≤ found)%Z → (-1 ≤ Str.rfind_from c s i found)%Z.
Proof.
  revert i found. induction s as [|a s IH]; simpl; [done|].
  intros i found Hfound. apply IH. destruct (Ascii.eqb a c); lia.
Qed.

(** A name without dot has no extension to split off. *)
Lemma splitext_no_dot p :
  Str.count "." p = 0 → posixpath.splitext p = (p, "").
Proof.
  intros Hc. unfold posixpath.splitext.
  rewrite (rfind_no_sep "." p Hc).
  pose proof (rfind_from_lower_bound "/" p 0 (-1) ltac:(done)) as Hsep.
  fold (Str.rfind "/" p) in Hsep.
  destruct (Z.ltb_spec (Str.rfind "/" p) (-1)); [lia|done].
Qed.



(** A filename made of leading dots and a name, or ending in a dot, has an
    empty extension too. *)
Example file_extension_dotfile :
  file_extension (sample_media Media (Some "media/.hidden") (Some ""))
    = Return ""
  ∧ file_extension (sample_media Media (Some "media/clip.") (Some ""))
    = Return "".
Proof. split; reflexivity. Qed.

(** When [url] returns, the file attribute holds a name, so [filename]
    returns too. *)
Lemma url_returns_filename storage i u :
  url storage i = Return u → ∃ f, filename i = Return f.
Proof.
  unfold url, FieldFile_url, filename.
  destruct (FieldFile.name (AbstractMedia.file i)) as [n|]; [|done].
  intros _. by exists (posixpath.basename n).
Qed.

(** With ["song.mp3"] mapped to ["audio/mpeg"] by the MIME tables,
    [sources] of a record whose [url] is an address [a] and whose filename is
    ["song.mp3"] is the one entry pairing [a] with ["audio/mpeg"]; for a
    filename whose type the tables do not know, the entry's type is
    ["application/octet-stream"]; and when [url] yields no address ([None]
    or the empty string), the entry's address is the route of the index
    view. *)
Theorem sources_entry storage guess_type reverse :
  (∀ i a,
      (guess_type "song.mp3").1 = Some "audio/mpeg" →
      url storage i = Return (Some a) → Str.truthy a = true →
      filename i = Return "song.mp3" →
      sources storage guess_type reverse i
      = Return [ {[ "src" := a; "type" := "audio/mpeg" ]} ])
  ∧ (∀ i u src f,
      url storage i = Return u →
      py_or u (reverse "chunked_media:index") = Return src →
      filename i = Return f → (guess_type f).1 = None →
      sources storage guess_type reverse i
      = Return [ {[ "src" := src; "type" := "application/octet-stream" ]} ])
  ∧ (∀ i u route,
      url storage i = Return u → truthy_opt u = false →
      reverse "chunked_media:index" = Return route →
      ∃ ty, sources storage guess_type reverse i
            = Return [ {[ "src" := route; "type" := ty ]} ]).
Proof.
  split; [|split].
  - intros i a Hmp3 Hu Ha Hf. unfold sources. rewrite Hu, Hf. simpl.
    by rewrite Ha, Hmp3.
  - intros i u src f Hu Hsrc Hf Hty. unfold sources.
    rewrite Hu. simpl. rewrite Hsrc. simpl. rewrite Hf. simpl.
    by rewrite Hty.
  - intros i u route Hu Hfalsy Hroute.
    destruct (url_returns_filename _ _ _ Hu) as [f Hf].
    assert (py_or u (reverse "chunked_media:index") = Return route) as Hsrc.
    { unfold py_or. destruct u as [s|]; [|done].
      simpl in Hfalsy. by rewrite Hfalsy. }
    unfold sources. rewrite Hu. simpl. rewrite Hsrc. simpl. rewrite Hf. simpl.
    destruct (py_or (guess_type f).1 (Return octet_stream)) as [ty|e] eqn:Hty.
    + by exists ty.
    + unfold py_or in Hty. destruct ((guess_type f).1) as [s|]; [|done].
      by destruct (Str.truthy s).
Qed.

Lemma sources_entry_witness :
  sources (plain_storage "/m/") guess_type_by_ext reverse_urlconf
    (sample_media Media (Some "media/song.mp3") (Some ""))
  = Return [ {[ "src" := "/m/media/song.mp3"; "type" := "audio/mpeg" ]} ]
  ∧ sources (plain_storage "/m/") guess_type_by_ext reverse_urlconf
      (sample_media Media (Some "media/README") (Some ""))
    = Return [ {[ "src" := "/m/media/README";
                  "type" := "application/octet-stream" ]} ]
  ∧ ∃ ty, sources private_storage guess_type_by_ext reverse_urlconf
            (sample_media Media (Some "media/song.mp3") (Some ""))
          = Return [ {[ "src" := "/admin/media/"; "type" := ty ]} ].
Proof.
  split; [|split].
  - apply (proj1 (sources_entry (plain_storage "/m/") guess_type_by_ext
                    reverse_urlconf)); reflexivity.
  - apply (proj1 (proj2 (sources_entry (plain_storage "/m/") guess_type_by_ext
                           reverse_urlconf))
             _ (Some "/m/media/README") _ "README"); reflexivity.
  - apply (proj2 (proj2 (sources_entry private_storage guess_type_by_ext
                           reverse_urlconf))
             _ None "/admin/media/"); reflexivity.
Defined.

(** A record without file has no [sources]: [FieldFile.url] raises before
    the fallback is looked at. *)
Lemma sources_no_file storage guess_type reverse i :
  FieldFile.bool (AbstractMedia.file i) = false →
  sources storage guess_type reverse i = Raise ValueError.
Proof.
  unfold FieldFile.bool, truthy_opt, sources, url, FieldFile_url.
  destruct (FieldFile.name (AbstractMedia.file i)) as [n|]; [|done].
  by intros ->.
Qed.

(** * Further properties of the module *)

(** ** Positions in strings *)

Section LastOccurrence.

Variable c : ascii.

(** A string that contains [c] can be cut at its last occurrence. *)
Lemma last_sep_cut s :
  Str.count c s ≠ 0 →
  ∃ s1 s2, s = s1 +:+ String c s2 ∧ Str.count c s2 = 0.
Proof.
  induction s as [|a s IH]; simpl; [done|].
  destruct (decide (Str.count c s = 0)) as [Hz|Hnz].
  - destruct (Ascii.eqb a c) eqn:E; [|by rewrite Hz].
    apply Ascii.eqb_eq in E as ->. intros _. by exists "", s.
  - intros _. destruct (IH Hnz) as (s1 & s2 & -> & Hs2).
    by exists (String a s1), s2.
Qed.

Lemma rfind_from_last s1 s2 i found :
  Str.count c s2 = 0 →
  Str.rfind_from c (s1 +:+ String c s2) i found
  = Z.of_nat (i + String.length s1).
Proof.
  intros Hs2. revert i found.
  induction s1 as [|a s1 IH]; intros i found; simpl.
  - rewrite Ascii.eqb_refl, rfind_from_no_sep by done. f_equal. lia.
  - rewrite IH. f_equal. lia.
Qed.

(** [rfind] is the position of the last occurrence. *)
Lemma rfind_last s1 s2 :
  Str.count c s2 = 0 →
  Str.rfind c (s1 +:+ String c s2) = Z.of_nat (String.length s1).
Proof. intros Hs2. unfold Str.rfind. by rewrite rfind_from_last. Qed.

End LastOccurrence.

Lemma app_cons_str a (s1 s2 : string) :
  String a s1 +:+ s2 = String a (s1 +:+ s2).
Proof. reflexivity. Qed.

Lemma drop_app_length s1 s2 : Str.drop (String.length s1) (s1 +:+ s2) = s2.
Proof. induction s1 as [|a s1 IH]; simpl; [by destruct s2|done]. Qed.

Lemma take_app_length s1 s2 : Str.take (String.length s1) (s1 +:+ s2) = s1.
Proof.
  induction s1 as [|a s1 IH]; simpl; [by destruct s2|by rewrite IH].
Qed.

Lemma app_assoc_str (s1 s2 s3 : string) :
  (s1 +:+ s2) +:+ s3 = s1 +:+ (s2 +:+ s3).
Proof.
  induction s1 as [|a s1 IH]; [done|]. rewrite !app_cons_str. by f_equal.
Qed.

Lemma length_app_str (s1 s2 : string) :
  String.length (s1 +:+ s2) = String.length s1 + String.length s2.
Proof.
  induction s1 as [|a s1 IH]; [done|]. rewrite app_cons_str. simpl.
  by rewrite IH.
Qed.

(** ** basename *)

(** [basename] of a path is what follows its last slash. *)
Lemma basename_after_last_slash d f :
  Str.count "/" f = 0 → posixpath.basename (d +:+ String "/" f) = f.
Proof.
  intros Hf. unfold posixpath.basename. rewrite rfind_last by done.
  replace (Z.to_nat (Z.of_nat (String.length d) + 1))
    with (String.length (d +:+ "/")) by (rewrite length_app_str; simpl; lia).
  change (String "/" f) with ("/" +:+ f).
  by rewrite <- app_assoc_str, drop_app_length.
Qed.

Lemma basename_no_slash p :
  Str.count "/" p = 0 → posixpath.basename p = p.
Proof.
  intros Hp. unfold posixpath.basename. by rewrite rfind_no_sep.
Qed.

Lemma basename_count_slash p : Str.count "/" (posixpath.basename p) = 0.
Proof.
  destruct (decide (Str.count "/" p = 0)) as [Hz|Hnz].
  - by rewrite basename_no_slash.
  - destruct (last_sep_cut "/" p Hnz) as (d & f & -> & Hf).
    by rewrite basename_after_last_slash.
Qed.

(** X1: whenever [filename] or [thumbnail_filename] returns, the name it
    returns contains no path separator. *)
Theorem filename_no_slash i f :
  filename i = Return f ∨ thumbnail_filename i = Return f →
  Str.count "/" f = 0.
Proof.
  unfold filename, thumbnail_filename.
  intros [H|H];
    [destruct (FieldFile.name (AbstractMedia.file i)) as [p|]
    |destruct (FieldFile.name (AbstractMedia.thumbnail i)) as [p|]];
    simpl in H; try done;
    injection H as <-; apply basename_count_slash.
Qed.

Lemma filename_no_slash_witness : Str.count "/" "clip.mp4" = 0.
Proof.
  apply (filename_no_slash
           (sample_media Media (Some "media/2020/clip.mp4") (Some ""))).
  left. reflexivity.
Defined.

(** X2: for a record whose file is stored under a directory, [filename] is
    the part after the last slash; a stored name without slash is its own
    filename. *)
Theorem filename_of_stored_name i :
  (∀ d f, FieldFile.name (AbstractMedia.file i) = Some (d +:+ "/" +:+ f) →
          Str.count "/" f = 0 → filename i = Return f)
  ∧ (∀ p, FieldFile.name (AbstractMedia.file i) = Some p →
          Str.count "/" p = 0 → filename i = Return p).
Proof.
  split.
  - intros d f Hn Hf. unfold filename. rewrite Hn. simpl.
    f_equal. by apply basename_after_last_slash.
  - intros p Hn Hp. unfold filename. rewrite Hn. simpl.
    f_equal. by apply basename_no_slash.
Qed.

Lemma filename_of_stored_name_witness :
  filename (sample_media Media (Some "media/2020/clip.mp4") (Some ""))
    = Return "clip.mp4"
  ∧ filename (sample_media Media (Some "clip.mp4") (Some ""))
    = Return "clip.mp4".
Proof.
  split.
  - apply (proj1 (filename_of_stored_name _) "media/2020" "clip.mp4");
      reflexivity.
  - apply (proj2 (filename_of_stored_name _) "clip.mp4"); reflexivity.
Defined.

(** ** splitext and file_extension *)

Lemma at_app_length pre a s :
  Str.at_ (String.length pre) (pre +:+ String a s) = String a "".
Proof. unfold Str.at_. by rewrite drop_app_length. Qed.

(** The dot-skipping loop over a stretch [s] of the path: it gives up when
    the stretch is all dots and cuts at [dotIndex] otherwise. *)
Lemma splitext_loop_scan pre s rest d :
  posixpath.splitext_loop (pre +:+ s +:+ rest) (String.length pre)
    (String.length s) d
  = if all_dots s then None
    else Some (Str.take d (pre +:+ s +:+ rest),
               Str.drop d (pre +:+ s +:+ rest)).
Proof.
  revert pre. induction s as [|a s IH]; intros pre; [done|].
  rewrite app_cons_str. simpl. rewrite at_app_length. simpl.
  destruct (Ascii.eqb a "."); simpl; [|done].
  specialize (IH (pre +:+ String a "")).
  rewrite length_app_str in IH. simpl in IH.
  rewrite Nat.add_1_r, app_assoc_str in IH. done.
Qed.

(** [splitext] of a name without slash, cut at its last dot. *)
Lemma splitext_last_dot stem ext :
  Str.count "/" (stem +:+ "." +:+ ext) = 0 →
  Str.count "." ext = 0 →
  posixpath.splitext (stem +:+ "." +:+ ext)
  = if all_dots stem then (stem +:+ "." +:+ ext, "")
    else (stem, "." +:+ ext).
Proof.
  intros Hslash Hext. unfold posixpath.splitext.
  rewrite (rfind_no_sep "/" _ Hslash).
  change ("." +:+ ext) with (String "." ext).
  rewrite rfind_last by done.
  destruct (Z.ltb_spec (-1) (Z.of_nat (String.length stem))); [|lia].
  rewrite Nat2Z.id. change (Z.to_nat (-1 + 1)) with (String.length "").
  rewrite Nat.sub_0_r.
  pose proof (splitext_loop_scan "" stem (String "." ext)
                (String.length stem)) as Hscan.
  change ("" +:+ stem +:+ String "." ext) with (stem +:+ String "." ext)
    in Hscan.
  rewrite Hscan. destruct (all_dots stem); [done|].
  by rewrite take_app_length, drop_app_length.
Qed.

Lemma filename_is_basename i f :
  filename i = Return f → Str.count "/" f = 0.
Proof.
  unfold filename.
  destruct (FieldFile.name (AbstractMedia.file i)) as [p|]; [|done].
  simpl. intros [= <-]. apply basename_count_slash.
Qed.

(** X3: for a filename cut at its last dot, [file_extension] is what follows
    that dot, unless only dots come before it (a hidden file such as
    [.profile]), in which case it is empty. *)
Theorem file_extension_after_last_dot i stem ext :
  filename i = Return (stem +:+ "." +:+ ext) →
  Str.count "." ext = 0 →
  file_extension i = Return (if all_dots stem then "" else ext).
Proof.
  intros Hf Hext. unfold file_extension. rewrite Hf. simpl.
  rewrite splitext_last_dot by eauto using filename_is_basename.
  by destruct (all_dots stem).
Qed.

Lemma file_extension_after_last_dot_witness :
  file_extension (sample_media Media (Some "media/archive.tar.gz") (Some ""))
    = Return "gz".
Proof.
  apply (file_extension_after_last_dot _ "archive.tar" "gz"); reflexivity.
Defined.

(** X4: whatever [file_extension] returns contains neither a dot nor a
    slash, and is either empty or the end of the filename after a dot. *)
Theorem file_extension_shape i f e :
  filename i = Return f → file_extension i = Return e →
  Str.count "." e = 0 ∧ Str.count "/" e = 0
  ∧ (e = "" ∨ ∃ stem, f = stem +:+ "." +:+ e).
Proof.
  intros Hf He.
  pose proof (filename_is_basename _ _ Hf) as Hslash.
  unfold file_extension in He. rewrite Hf in He. simpl in He.
  destruct (decide (Str.count "." f = 0)) as [Hz|Hnz].
  - rewrite splitext_no_dot in He by done. simpl in He.
    injection He as <-. auto.
  - destruct (last_sep_cut "." f Hnz) as (stem & ext & -> & Hext).
    change (String "." ext) with ("." +:+ ext) in *.
    rewrite splitext_last_dot in He by done.
    destruct (all_dots stem).
    { simpl in He. injection He as <-. auto. }
    change (Return ext = Return e) in He. injection He as <-.
    rewrite !count_app in Hslash. simpl in Hslash.
    split; [done|]. split; [lia|].
    right. by exists stem.
Qed.

Lemma file_extension_shape_witness :
  Str.count "." "gz" = 0 ∧ Str.count "/" "gz" = 0
  ∧ ("gz" = "" ∨ ∃ stem, "archive.tar.gz" = stem +:+ "." +:+ "gz").
Proof.
  apply (file_extension_shape
           (sample_media Media (Some "media/archive.tar.gz") (Some "")));
    reflexivity.
Defined.

(** ** sources *)

Lemma py_or_default x d r :
  Str.truthy d = true → py_or x (Return d) = Return r →
  Str.truthy r = true ∧ (x = Some r ∨ r = d).
Proof.
  intros Hd. unfold py_or. destruct x as [s|].
  - destruct (Str.truthy s) eqn:Hs; intros [= <-]; auto.
  - intros [= <-]; auto.
Qed.

Lemma py_or_default_returns x d : ∃ r, py_or x (Return d) = Return r.
Proof.
  unfold py_or. destruct x as [s|]; [|by eexists].
  destruct (Str.truthy s); by eexists.
Qed.

Lemma py_or_falsy x y : truthy_opt x = false → py_or x y = y.
Proof.
  unfold py_or. destruct x as [s|]; [|done]. simpl. by intros ->.
Qed.

Lemma py_or_truthy a y : Str.truthy a = true → py_or (Some a) y = Return a.
Proof. unfold py_or. by intros ->. Qed.

(** X5: whenever [sources] returns, it returns exactly one entry, whose
    type is not empty: either the type the MIME tables give for the
    filename, or ["application/octet-stream"]. *)
Theorem sources_single_entry storage guess_type reverse i l :
  sources storage guess_type reverse i = Return l →
  ∃ src ty f,
    l = [ {[ "src" := src; "type" := ty ]} ]
    ∧ filename i = Return f
    ∧ Str.truthy ty = true
    ∧ ((guess_type f).1 = Some ty ∨ ty = "application/octet-stream").
Proof.
  unfold sources.
  destruct (url storage i) as [u|e]; [|done]. simpl.
  destruct (py_or u (reverse "chunked_media:index")) as [src|e]; [|done].
  simpl. destruct (filename i) as [f|e]; [|done]. simpl.
  destruct (py_or (guess_type f).1 (Return octet_stream)) as [ty|e] eqn:Hty;
    [|done].
  simpl. intros [= <-].
  apply py_or_default in Hty as [Htruthy Hcase]; [|done].
  by exists src, ty, f.
Qed.

Lemma sources_single_entry_witness :
  ∃ src ty f,
    [ ({[ "src" := "/m/media/song.mp3"; "type" := "audio/mpeg" ]}
       : gmap string string) ]
    = [ {[ "src" := src; "type" := ty ]} ]
    ∧ filename (sample_media Media (Some "media/song.mp3") (Some ""))
      = Return f
    ∧ Str.truthy ty = true
    ∧ ((guess_type_by_ext f).1 = Some ty ∨ ty = "application/octet-stream").
Proof.
  apply (sources_single_entry (plain_storage "/m/") guess_type_by_ext
           reverse_urlconf).
  reflexivity.
Defined.

(** X6: for a record whose [url] is a non-empty address, [sources] does not
    depend on the URL configuration: the index route is not looked up, so a
    configuration without that route does no harm. *)
Theorem sources_ignores_reverse storage guess_type reverse1 reverse2 i a :
  url storage i = Return (Some a) → Str.truthy a = true →
  sources storage guess_type reverse1 i
  = sources storage guess_type reverse2 i.
Proof.
  intros Hu Ha. unfold sources, rbind. rewrite Hu.
  by rewrite !py_or_truthy.
Qed.

Lemma sources_ignores_reverse_witness :
  sources (plain_storage "/m/") guess_type_by_ext reverse_urlconf
    (sample_media Media (Some "media/song.mp3") (Some ""))
  = sources (plain_storage "/m/") guess_type_by_ext
      (λ _, Raise NoReverseMatch)
      (sample_media Media (Some "media/song.mp3") (Some "")).
Proof.
  apply (sources_ignores_reverse _ _ _ _ _ "/m/media/song.mp3"); reflexivity.
Defined.

(** X7: [sources] raises exactly when [url] raises, or when [url] yields no
    address and looking up the index route raises; the exception is that
    one.  Neither the filename nor the MIME lookup can make it fail. *)
Theorem sources_raises_iff storage guess_type reverse i e :
  sources storage guess_type reverse i = Raise e
  ↔ url storage i = Raise e
    ∨ ∃ u, url storage i = Return u ∧ truthy_opt u = false
           ∧ reverse "chunked_media:index" = Raise e.
Proof.
  unfold sources. split.
  - destruct (url storage i) as [u|e'] eqn:Hu; simpl; [|intros [= ->]; auto].
    destruct (url_returns_filename _ _ _ Hu) as [f Hf]. rewrite Hf.
    destruct (py_or_default_returns (guess_type f).1 octet_stream)
      as [ty Hty].
    destruct (truthy_opt u) eqn:Htruthy.
    + destruct u as [a|]; [|done]. simpl in Htruthy.
      rewrite py_or_truthy by done. simpl. by rewrite Hty.
    + rewrite py_or_falsy by done.
      destruct (reverse "chunked_media:index") as [route|e'] eqn:Hrev; simpl.
      * by rewrite Hty.
      * intros [= ->]. right. by exists u.
  - intros [Hu|(u & Hu & Hfalsy & Hrev)]; rewrite Hu; simpl; [done|].
    rewrite py_or_falsy by done. by rewrite Hrev.
Qed.

Lemma sources_raises_iff_witness :
  sources private_storage guess_type_by_ext (λ _, Raise NoReverseMatch)
    (sample_media Media (Some "media/song.mp3") (Some ""))
  = Raise NoReverseMatch.
Proof.
  apply sources_raises_iff. right. exists None. split; [reflexivity|].
  split; reflexivity.
Defined.

(** ** The resolver, case by case *)

Section SplitInverse.

Variable c : ascii.

Lemma split_one s p : Str.split c s = [p] → s = p.
Proof.
  revert p. induction s as [|a s IH]; intros p; simpl.
  - by intros [= <-].
  - destruct (Ascii.eqb a c).
    + intros [= _ H]. by destruct (split_not_nil c s).
    + destruct (Str.split c s) as [|q qs] eqn:E;
        [by destruct (split_not_nil c s)|].
      intros [= <- ->]. f_equal. by apply IH.
Qed.

(** Two pieces come from a string with the separator between them. *)
Lemma split_two s a m : Str.split c s = [a; m] → s = a +:+ String c m.
Proof.
  revert a. induction s as [|x s IH]; intros a; simpl; [done|].
  destruct (Ascii.eqb x c) eqn:E.
  - apply Ascii.eqb_eq in E as ->. intros [= <- H].
    by rewrite (split_one _ _ H).
  - destruct (Str.split c s) as [|q qs] eqn:Hs; [done|].
    intros [= <- ->]. rewrite app_cons_str. f_equal. by apply IH.
Qed.

End SplitInverse.

(** X8: whenever the resolver returns a type, it is either the built-in
    [Media], for a setting that is absent or has no [split] attribute, or
    the type registered under the two sides of a setting with exactly one
    dot. *)
Theorem get_media_model_returns_inv settings apps cls :
  get_media_model settings apps = Return cls →
  (cls = Media
   ∧ (settings !! "CHUNKED_MEDIA_MODEL" = None
      ∨ ∃ v, settings !! "CHUNKED_MEDIA_MODEL" = Some v
             ∧ has_split v = false))
  ∨ (∃ s a m,
       settings !! "CHUNKED_MEDIA_MODEL" = Some (PyStr s)
       ∧ Str.count "." s = 1 ∧ s = a +:+ "." +:+ m
       ∧ registered apps a m cls).
Proof.
  unfold get_media_model, get_media_model_with, settings_getattr.
  destruct (settings !! "CHUNKED_MEDIA_MODEL") as [v|] eqn:Hs; simpl.
  - destruct v as [|b|z|s|b|l|l]; simpl;
      try (intros [= <-]; left; split; [done|]; right; by eexists);
      try done.
    destruct (Str.split "." s) as [|a [|m [|? ?]]] eqn:Hsplit; simpl;
      try done.
    unfold apps_get_model.
    destruct (apps !! a) as [models|] eqn:Happ; simpl; [|done].
    destruct (models !! Str.lower m) as [cls'|] eqn:Hmodel; simpl; [|done].
    intros [= <-]. right. exists s, a, m. split; [done|].
    split.
    + pose proof (split_length "." s) as Hlen. rewrite Hsplit in Hlen.
      simpl in Hlen. lia.
    + split; [by apply split_two|]. by exists models.
  - intros [= <-]. left. auto.
Qed.

Lemma get_media_model_returns_inv_witness :
  (CustomMedia = Media
   ∧ (({[ "CHUNKED_MEDIA_MODEL" := PyStr "myapp.CustomMedia" ]}
         : gmap string py_value) !! "CHUNKED_MEDIA_MODEL" = None
      ∨ ∃ v, ({[ "CHUNKED_MEDIA_MODEL" := PyStr "myapp.CustomMedia" ]}
                : gmap string py_value) !! "CHUNKED_MEDIA_MODEL" = Some v
             ∧ has_split v = false))
  ∨ (∃ s a m,
       ({[ "CHUNKED_MEDIA_MODEL" := PyStr "myapp.CustomMedia" ]}
          : gmap string py_value) !! "CHUNKED_MEDIA_MODEL" = Some (PyStr s)
       ∧ Str.count "." s = 1 ∧ s = a +:+ "." +:+ m
       ∧ registered sample_apps a m CustomMedia).
Proof.
  apply (get_media_model_returns_inv _ sample_apps). reflexivity.
Defined.

(** X9: whenever the resolver raises, the exception is one of three:
    [ImproperlyConfigured] with the must-be-of-the-form message, for a
    string without exactly one dot; the registry's [LookupError], for a
    dotted pair that names no registered type; or [TypeError], for a
    [bytes] setting.  [AttributeError] and [ValueError] never escape, and
    the has-not-been-installed message is never produced. *)
Theorem get_media_model_raises_inv settings apps e :
  get_media_model settings apps = Raise e →
  (e = ImproperlyConfigured msg_bad_form
   ∧ ∃ s, settings !! "CHUNKED_MEDIA_MODEL" = Some (PyStr s)
          ∧ Str.count "." s ≠ 1)
  ∨ (e = LookupError
     ∧ ∃ s a m, settings !! "CHUNKED_MEDIA_MODEL" = Some (PyStr s)
                ∧ Str.count "." s = 1 ∧ s = a +:+ "." +:+ m
                ∧ ∀ cls, ¬ registered apps a m cls)
  ∨ (e = TypeError
     ∧ ∃ b, settings !! "CHUNKED_MEDIA_MODEL" = Some (PyBytes b)).
Proof.
  unfold get_media_model, get_media_model_with, settings_getattr.
  destruct (settings !! "CHUNKED_MEDIA_MODEL") as [v|] eqn:Hs; simpl;
    [|done].
  destruct v as [|b|z|s|b|l|l]; simpl; try done.
  - pose proof (split_length "." s) as Hlen.
    destruct (Str.split "." s) as [|a [|m [|? ?]]] eqn:Hsplit; simpl;
      try (intros [= <-]; left; split; [done|]; exists s; split; [done|];
           simpl in Hlen; lia).
    unfold apps_get_model.
    assert (Str.count "." s = 1) as Hc by (simpl in Hlen; lia).
    destruct (apps !! a) as [models|] eqn:Happ; simpl.
    + destruct (models !! Str.lower m) as [cls'|] eqn:Hmodel; simpl; [done|].
      intros [= <-]. right. left. split; [done|]. exists s, a, m.
      split; [done|]. split; [done|]. split; [by apply split_two|].
      intros cls (models' & Happ' & Hmodel'). congruence.
    + intros [= <-]. right. left. split; [done|]. exists s, a, m.
      split; [done|]. split; [done|]. split; [by apply split_two|].
      intros cls (models' & Happ' & _). congruence.
  - intros [= <-]. right. right. split; [done|]. by exists b.
Qed.

Lemma get_media_model_raises_inv_witness :
  (LookupError = ImproperlyConfigured msg_bad_form
   ∧ ∃ s, ({[ "CHUNKED_MEDIA_MODEL" := PyStr "myapp.Podcast" ]}
             : gmap string py_value) !! "CHUNKED_MEDIA_MODEL" = Some (PyStr s)
          ∧ Str.count "." s ≠ 1)
  ∨ (LookupError = LookupError
     ∧ ∃ s a m, ({[ "CHUNKED_MEDIA_MODEL" := PyStr "myapp.Podcast" ]}
                   : gmap string py_value) !! "CHUNKED_MEDIA_MODEL"
                = Some (PyStr s)
                ∧ Str.count "." s = 1 ∧ s = a +:+ "." +:+ m
                ∧ ∀ cls, ¬ registered sample_apps a m cls)
  ∨ (LookupError = TypeError
     ∧ ∃ b, ({[ "CHUNKED_MEDIA_MODEL" := PyStr "myapp.Podcast" ]}
               : gmap string py_value) !! "CHUNKED_MEDIA_MODEL"
            = Some (PyBytes b)).
Proof.
  apply (get_media_model_raises_inv _ sample_apps). reflexivity.
Defined.

Lemma apps_get_model_lower apps label m m' :
  Str.lower m = Str.lower m' →
  apps_get_model apps label m = apps_get_model apps label m'.
Proof. intros H. unfold apps_get_model. by rewrite H. Qed.

(** X10: the model-name side of the setting is matched without regard to
    letter case: two settings with the same application label and model
    names that agree once lower-cased resolve alike. *)
Theorem get_media_model_name_case settings settings' apps a m m' :
  settings !! "CHUNKED_MEDIA_MODEL" = Some (PyStr (a +:+ "." +:+ m)) →
  settings' !! "CHUNKED_MEDIA_MODEL" = Some (PyStr (a +:+ "." +:+ m')) →
  Str.count "." (a +:+ "." +:+ m) = 1 →
  Str.count "." (a +:+ "." +:+ m') = 1 →
  Str.lower m = Str.lower m' →
  get_media_model settings apps = get_media_model settings' apps.
Proof.
  intros Hs Hs' Hc Hc' Hlower. unfold get_media_model.
  rewrite (get_media_model_with_pair _ _ _ a m Hs
             (split_dotted_pair _ _ _ Hc eq_refl)).
  rewrite (get_media_model_with_pair _ _ _ a m' Hs'
             (split_dotted_pair _ _ _ Hc' eq_refl)).
  rewrite (apps_get_model_lower apps a m m' Hlower).
  destruct (apps_get_model apps a m') as [[cls|]|e] eqn:E; try done.
  by destruct (apps_get_model_not_None apps a m').
Qed.

Lemma get_media_model_name_case_witness :
  get_media_model {[ "CHUNKED_MEDIA_MODEL" := PyStr "myapp.CustomMedia" ]}
    sample_apps
  = get_media_model {[ "CHUNKED_MEDIA_MODEL" := PyStr "myapp.custommedia" ]}
      sample_apps.
Proof.
  apply (get_media_model_name_case _ _ _ "myapp" "CustomMedia" "custommedia");
    reflexivity.
Defined.

(** ** The deletion hook on every instance *)

Lemma names_to_delete_unset f :
  FieldFile.bool f = false ↔ names_to_delete f = [].
Proof.
  unfold FieldFile.bool, truthy_opt, names_to_delete.
  destruct (FieldFile.name f) as [n|]; [|done].
  by destruct (Str.truthy n).
Qed.

Lemma getattr_cleared a i :
  FieldFile.bool (getattr_file a (cleared a i)) = false.
Proof. by destruct a. Qed.

Lemma getattr_cleared_other a b i :
  b ≠ a → getattr_file b (cleared a i) = getattr_file b i.
Proof. by destruct a, b. Qed.

Lemma other_fields_cleared a i : other_fields (cleared a i) = other_fields i.
Proof. by destruct a. Qed.

(** One [FieldFile.delete(False)] on any backend: the names handed to the
    backend are logged, nothing but the attribute itself changes on the
    instance, and the attribute is empty afterwards when the call
    returns. *)
Lemma FieldFile_delete_cases storage a i w :
  ∃ r i' res,
    FieldFile_delete storage a false (i, w)
    = (r, (i', World res (trace w ++ (StorageDelete
                                        <$> names_to_delete (getattr_file a i)))))
    ∧ other_fields i' = other_fields i
    ∧ (∀ b, b ≠ a → getattr_file b i' = getattr_file b i)
    ∧ (r = Return () → FieldFile.bool (getattr_file a i') = false)
    ∧ (r ≠ Return () → i' = i ∧ res = resources w).
Proof.
  unfold FieldFile_delete, names_to_delete.
  destruct (FieldFile.name (getattr_file a i)) as [n|] eqn:Hn.
  - destruct (Str.truthy n) eqn:Ht.
    + simpl. destruct (storage_delete storage n (resources w)) as [res|e].
      * eexists _, _, _. split; [reflexivity|].
        split; [apply other_fields_cleared|].
        split; [intros b Hb; by apply getattr_cleared_other|].
        split; [intros _; apply getattr_cleared|done].
      * eexists _, _, _. split; [reflexivity|]. by repeat split.
    + exists (Return ()), i, (resources w). simpl. rewrite app_nil_r.
      destruct w. repeat split; try done.
      intros _. unfold FieldFile.bool, truthy_opt. by rewrite Hn.
  - exists (Return ()), i, (resources w). simpl. rewrite app_nil_r.
    destruct w. repeat split; try done.
    intros _. unfold FieldFile.bool, truthy_opt. by rewrite Hn.
Qed.

(** The hook on any instance and any backend. *)
Lemma media_delete_cases storage sender i w :
  ∃ r i' res ns,
    media_delete storage sender (i, w)
    = (r, (i', World res (trace w ++ (StorageDelete <$> ns))))
    ∧ ns `prefix_of` hook_names i
    ∧ other_fields i' = other_fields i
    ∧ (r = Return () →
       ns = hook_names i
       ∧ FieldFile.bool (AbstractMedia.file i') = false
       ∧ FieldFile.bool (AbstractMedia.thumbnail i') = false).
Proof.
  unfold media_delete, seq, hook_names.
  destruct (FieldFile_delete_cases storage attr_file i w)
    as (r1 & i1 & res1 & -> & Hother1 & Hframe1 & Hret1 & _).
  destruct r1 as [[]|e].
  - destruct (FieldFile_delete_cases storage attr_thumbnail i1
                (World res1 (trace w ++ (StorageDelete
                   <$> names_to_delete (getattr_file attr_file i)))))
      as (r2 & i2 & res2 & -> & Hother2 & Hframe2 & Hret2 & _).
    cbv beta iota. rewrite (Hframe1 attr_thumbnail) by done.
    cbn [trace]. rewrite <- app_assoc, <- fmap_app.
    eexists _, _, _, _. split; [reflexivity|].
    split; [done|]. split; [congruence|].
    intros ->. split; [done|]. split; [|by apply Hret2].
    change (AbstractMedia.file i2) with (getattr_file attr_file i2).
    rewrite (Hframe2 attr_file) by done. by apply Hret1.
  - eexists _, _, _, _. split; [reflexivity|].
    split; [by apply prefix_app_r|]. split; [done|]. done.
Qed.

(** X11: on any backend and any instance, the hook only ever calls the
    backend's delete, on a prefix of the file's name followed by the
    thumbnail's name (the whole of it when the hook returns): it never saves
    the instance and never removes a row, and it leaves every field other
    than the two file attributes as it was. *)
Theorem media_delete_footprint storage sender i w :
  ∃ r i' res ns,
    media_delete storage sender (i, w)
    = (r, (i', World res (trace w ++ (StorageDelete <$> ns))))
    ∧ ns `prefix_of` hook_names i
    ∧ (r = Return () → ns = hook_names i)
    ∧ (List.length ns ≤ 2)%nat
    ∧ other_fields i' = other_fields i.
Proof.
  destruct (media_delete_cases storage sender i w)
    as (r & i' & res & ns & Hrun & Hprefix & Hother & Hret).
  exists r, i', res, ns. split; [done|]. split; [done|].
  split; [by intros H; apply Hret|]. split; [|done].
  apply prefix_length in Hprefix. etrans; [done|].
  unfold hook_names, names_to_delete. rewrite length_app.
  destruct (FieldFile.name (AbstractMedia.file i)) as [f|];
    destruct (FieldFile.name (AbstractMedia.thumbnail i)) as [t|];
    repeat case_match; simpl; lia.
Qed.

(** X12: the hook is idempotent: once it has returned, running it again on
    the state it left changes nothing and calls the backend no more. *)
Theorem media_delete_idempotent storage sender st st' :
  media_delete storage sender st = (Return (), st') →
  media_delete storage sender st' = (Return (), st').
Proof.
  destruct st as [i w]. intros Hrun.
  destruct (media_delete_cases storage sender i w)
    as (r & i' & res & ns & Hrun' & _ & _ & Hret).
  rewrite Hrun in Hrun'. injection Hrun' as <- ->.
  destruct (Hret eq_refl) as (_ & Hfile & Hthumb).
  unfold media_delete, seq.
  rewrite (FieldFile_delete_unset storage attr_file) by done.
  by rewrite (FieldFile_delete_unset storage attr_thumbnail).
Qed.

Lemma media_delete_idempotent_witness :
  media_delete (plain_storage "/m/") Media
    (cleared attr_thumbnail
       (cleared attr_file
          (sample_media Media (Some "media/clip.mp4")
             (Some "media_thumbnails/clip.jpg"))),
     World (resources sample_world ∖ {[ "media/clip.mp4" ]}
              ∖ {[ "media_thumbnails/clip.jpg" ]})
       [StorageDelete "media/clip.mp4";
        StorageDelete "media_thumbnails/clip.jpg"])
  = (Return (),
     (cleared attr_thumbnail
        (cleared attr_file
           (sample_media Media (Some "media/clip.mp4")
              (Some "media_thumbnails/clip.jpg"))),
      World (resources sample_world ∖ {[ "media/clip.mp4" ]}
               ∖ {[ "media_thumbnails/clip.jpg" ]})
        [StorageDelete "media/clip.mp4";
         StorageDelete "media_thumbnails/clip.jpg"])).
Proof.
  apply (media_delete_idempotent (plain_storage "/m/") Media
           (sample_media Media (Some "media/clip.mp4")
              (Some "media_thumbnails/clip.jpg"), sample_world)).
  reflexivity.
Defined.

Lemma media_delete_footprint_witness :
  ∃ r i' res ns,
    media_delete readonly_storage Media
      (sample_media Media (Some "media/clip.mp4")
         (Some "media_thumbnails/clip.jpg"), sample_world)
    = (r, (i', World res (trace sample_world ++ (StorageDelete <$> ns))))
    ∧ ns `prefix_of` hook_names
                       (sample_media Media (Some "media/clip.mp4")
                          (Some "media_thumbnails/clip.jpg"))
    ∧ (r = Return () →
       ns = hook_names (sample_media Media (Some "media/clip.mp4")
                          (Some "media_thumbnails/clip.jpg")))
    ∧ (List.length ns ≤ 2)%nat
    ∧ other_fields i'
      = other_fields (sample_media Media (Some "media/clip.mp4")
                        (Some "media_thumbnails/clip.jpg")).
Proof. apply media_delete_footprint. Defined.

Lemma FieldFile_delete_removes storage a i w :
  delete_removes storage →
  ∃ i',
    FieldFile_delete storage a false (i, w)
    = (Return (),
       (i', World (resources w
                     ∖ list_to_set (names_to_delete (getattr_file a i)))
                  (trace w ++ (StorageDelete
                                 <$> names_to_delete (getattr_file a i))))).
Proof.
  intros Hok. unfold FieldFile_delete, names_to_delete.
  destruct (FieldFile.name (getattr_file a i)) as [n|].
  - destruct (Str.truthy n) eqn:Ht.
    + simpl. rewrite (Hok n _ Ht), union_empty_r_L. by eexists.
    + exists i. simpl. rewrite app_nil_r, difference_empty_L. by destruct w.
  - exists i. simpl. rewrite app_nil_r, difference_empty_L. by destruct w.
Qed.

(** X13: on a backend whose delete removes the named resource, the hook
    returns for every instance, whichever of its two files are set: the
    backend is called for exactly the names that are set, file first;
    afterwards the stored resources are the former ones without those names,
    and both file attributes are empty. *)
Theorem media_delete_removes_named storage sender i w :
  delete_removes storage →
  ∃ i' res,
    media_delete storage sender (i, w)
    = (Return (),
       (i', World res (trace w ++ (StorageDelete <$> hook_names i))))
    ∧ (∀ n, n ∈ res ↔ n ∈ resources w ∧ n ∉ hook_names i)
    ∧ FieldFile.bool (AbstractMedia.file i') = false
    ∧ FieldFile.bool (AbstractMedia.thumbnail i') = false
    ∧ other_fields i' = other_fields i.
Proof.
  intros Hok.
  destruct (media_delete_cases storage sender i w)
    as (r & i' & res & ns & Hrun & _ & Hother & Hret).
  assert (r = Return ()
          ∧ res = resources w
                  ∖ list_to_set (names_to_delete (AbstractMedia.file i))
                  ∖ list_to_set (names_to_delete (AbstractMedia.thumbnail i)))
    as [-> ->].
  { revert Hrun. unfold media_delete, seq.
    destruct (FieldFile_delete_removes storage attr_file i w Hok)
      as (i1 & H1).
    pose proof (FieldFile_delete_cases storage attr_file i w)
      as (r1 & i1' & res1 & H1' & _ & Hframe1 & _).
    rewrite H1 in H1'. injection H1' as <- <- <-.
    rewrite H1.
    destruct (FieldFile_delete_removes storage attr_thumbnail i1
                (World (resources w
                          ∖ list_to_set (names_to_delete
                                           (getattr_file attr_file i)))
                   (trace w ++ (StorageDelete
                      <$> names_to_delete (getattr_file attr_file i)))) Hok)
      as (i2 & H2).
    rewrite H2. rewrite (Hframe1 attr_thumbnail) by done.
    by intros [= <- <- <- _]. }
  destruct (Hret eq_refl) as (-> & Hfile & Hthumb).
  exists i', (resources w
               ∖ list_to_set (names_to_delete (AbstractMedia.file i))
               ∖ list_to_set (names_to_delete (AbstractMedia.thumbnail i))).
  split; [done|]. split; [|done].
  intros n. unfold hook_names.
  rewrite !elem_of_difference, !elem_of_list_to_set, elem_of_app. tauto.
Qed.

Lemma media_delete_removes_named_witness :
  ∃ i' res,
    media_delete (plain_storage "/m/") Media
      (sample_media Media (Some "") (Some "media_thumbnails/clip.jpg"),
       sample_world)
    = (Return (),
       (i', World res
              (trace sample_world
               ++ (StorageDelete
                     <$> hook_names
                           (sample_media Media (Some "")
                              (Some "media_thumbnails/clip.jpg"))))))
    ∧ (∀ n, n ∈ res
            ↔ n ∈ resources sample_world
              ∧ n ∉ hook_names (sample_media Media (Some "")
                                  (Some "media_thumbnails/clip.jpg")))
    ∧ FieldFile.bool (AbstractMedia.file i') = false
    ∧ FieldFile.bool (AbstractMedia.thumbnail i') = false
    ∧ other_fields i'
      = other_fields (sample_media Media (Some "")
                        (Some "media_thumbnails/clip.jpg")).
Proof.
  apply media_delete_removes_named. apply plain_storage_delete_removes.
Defined.

(** X14: the two deletions are not atomic.  If the backend fails on the
    file, the hook raises with the instance as it was and the thumbnail is
    not asked for; if it fails on the thumbnail, the hook raises after the
    file has been deleted and its attribute cleared, the thumbnail attribute
    still set. *)
Theorem media_delete_not_atomic storage sender i w f t e :
  FieldFile.name (AbstractMedia.file i) = Some f → Str.truthy f = true →
  FieldFile.name (AbstractMedia.thumbnail i) = Some t → Str.truthy t = true →
  (storage_delete storage f (resources w) = Raise e →
   media_delete storage sender (i, w)
   = (Raise e, (i, World (resources w) (trace w ++ [StorageDelete f]))))
  ∧ (∀ res, storage_delete storage f (resources w) = Return res →
            storage_delete storage t res = Raise e →
            media_delete storage sender (i, w)
            = (Raise e,
               (cleared attr_file i,
                World res (trace w ++ [StorageDelete f; StorageDelete t])))
            ∧ FieldFile.name (AbstractMedia.thumbnail (cleared attr_file i))
              = Some t).
Proof.
  intros Hf Hft Ht Htt. unfold media_delete, seq.
  rewrite (FieldFile_delete_set storage attr_file false i w f Hf Hft).
  split.
  - by intros ->.
  - intros res -> Hfail. cbv beta iota zeta.
    rewrite (FieldFile_delete_set storage attr_thumbnail false _ _ t)
      by done.
    cbn [resources trace]. rewrite Hfail. unfold log. cbn [resources trace].
    by rewrite <- app_assoc.
Qed.

(** A backend that deletes under [media/] only. *)
Lemma media_delete_not_atomic_witness :
  media_delete
    {| storage_delete := λ n res,
         if String.prefix "media/" n then Return (res ∖ {[ n ]})
         else Raise OSError;
       storage_url := λ n, Return (Some n) |}
    Media
    (sample_media Media (Some "media/clip.mp4")
       (Some "media_thumbnails/clip.jpg"), sample_world)
  = (Raise OSError,
     (cleared attr_file
        (sample_media Media (Some "media/clip.mp4")
           (Some "media_thumbnails/clip.jpg")),
      World (resources sample_world ∖ {[ "media/clip.mp4" ]})
        (trace sample_world
         ++ [StorageDelete "media/clip.mp4";
             StorageDelete "media_thumbnails/clip.jpg"])))
  ∧ FieldFile.name
      (AbstractMedia.thumbnail
         (cleared attr_file
            (sample_media Media (Some "media/clip.mp4")
               (Some "media_thumbnails/clip.jpg"))))
    = Some "media_thumbnails/clip.jpg".
Proof.
  apply (proj2 (media_delete_not_atomic _ Media
                  (sample_media Media (Some "media/clip.mp4")
                     (Some "media_thumbnails/clip.jpg")) sample_world
                  "media/clip.mp4" "media_thumbnails/clip.jpg" OSError
                  eq_refl eq_refl eq_refl eq_refl));
    reflexivity.
Defined.

(** ** Deleting a record of the built-in type *)

Lemma Model_delete_Media_seq storage i w :
  AbstractMedia.cls i = Media →
  Model_delete storage (i, w)
  = (media_delete storage Media >>> remove_row) (i, w).
Proof.
  intros Hcls. unfold Model_delete, send. rewrite Hcls.
  rewrite live_receivers_Media. simpl.
  unfold seq at 1 3. by rewrite seq_skip_r.
Qed.

Lemma other_fields_cls_id i i' :
  other_fields i' = other_fields i →
  AbstractMedia.cls i' = AbstractMedia.cls i
  ∧ AbstractMedia.id i' = AbstractMedia.id i.
Proof. unfold other_fields. by intros [= -> -> _ _ _ _ _ _ _]. Qed.

Lemma delete_each_app storage ns1 ns2 res :
  delete_each storage (ns1 ++ ns2) res
  = match delete_each storage ns1 res with
    | (asked1, res1, None) =>
        let '(asked2, res2, err) := delete_each storage ns2 res1 in
        ((asked1 ++ asked2)%list, res2, err)
    | (asked1, res1, Some e) => (asked1, res1, Some e)
    end.
Proof.
  revert res. induction ns1 as [|n ns1 IH]; intros res; simpl.
  - by destruct (delete_each storage ns2 res) as [[asked2 res2] err].
  - destruct (storage_delete storage n res) as [res'|e]; [|done].
    rewrite IH.
    destruct (delete_each storage ns1 res') as [[asked1 res1] [e|]]; [done|].
    by destruct (delete_each storage ns2 res1) as [[asked2 res2] err].
Qed.

(** One [FieldFile.delete(False)] does what the backend answers. *)
Lemma FieldFile_delete_each storage a i w :
  ∃ i',
    FieldFile_delete storage a false (i, w)
    = (let '(asked, res, err) :=
         delete_each storage (names_to_delete (getattr_file a i))
           (resources w) in
       (outcome err, (i', World res (trace w ++ (StorageDelete <$> asked))))).
Proof.
  unfold FieldFile_delete, names_to_delete.
  destruct (FieldFile.name (getattr_file a i)) as [n|].
  - destruct (Str.truthy n).
    + simpl. destruct (storage_delete storage n (resources w)) as [res|e];
        by eexists.
    + exists i. simpl. rewrite app_nil_r. by destruct w.
  - exists i. simpl. rewrite app_nil_r. by destruct w.
Qed.

(** The hook does what the backend answers to the deletions of the names
    that are set, file first, and stops at the first that raises. *)
Lemma media_delete_each storage sender i w :
  ∃ i',
    other_fields i' = other_fields i
    ∧ media_delete storage sender (i, w)
      = (let '(asked, res, err) :=
           delete_each storage (hook_names i) (resources w) in
         (outcome err, (i', World res (trace w ++ (StorageDelete <$> asked))))).
Proof.
  destruct (media_delete_cases storage sender i w)
    as (r & i' & res & ns & Hrun & _ & Hother & _).
  exists i'. split; [done|]. rewrite Hrun. clear Hother.
  revert Hrun. unfold media_delete, seq, hook_names.
  rewrite delete_each_app.
  destruct (FieldFile_delete_each storage attr_file i w) as (i1 & H1).
  pose proof (FieldFile_delete_cases storage attr_file i w)
    as (r1 & i1' & res1' & H1' & _ & Hframe1 & _).
  rewrite H1 in H1'. rewrite H1. clear H1.
  change (getattr_file attr_file i) with (AbstractMedia.file i) in *.
  destruct (delete_each storage (names_to_delete (AbstractMedia.file i))
              (resources w)) as [[asked1 res1] [e|]];
    cbv beta iota zeta in *; cbn [outcome] in *.
  - by intros [= <- <- <- <-].
  - injection H1' as _ -> _ _.
    destruct (FieldFile_delete_each storage attr_thumbnail i1'
                (World res1 (trace w ++ (StorageDelete <$> asked1))))
      as (i2 & H2).
    rewrite H2. rewrite (Hframe1 attr_thumbnail) by done.
    change (getattr_file attr_thumbnail i) with (AbstractMedia.thumbnail i).
    cbn [resources trace].
    destruct (delete_each storage
                (names_to_delete (AbstractMedia.thumbnail i)) res1)
      as [[asked2 res2] err].
    rewrite <- app_assoc, <- fmap_app. by intros [= <- <- <- <-].
Qed.

(** X15: deleting a record of the built-in [Media] type does what the
    backend answers to the hook's deletions (the names that are set, file
    first, each on the resources the former left).  If they all return, the
    deletion returns and the removal of the record's row is the last event,
    after the backend calls; if one raises, the deletion raises that
    exception, the later names are not asked for, and no row is removed. *)
Theorem Model_delete_trace storage i w :
  AbstractMedia.cls i = Media →
  ∃ i',
    other_fields i' = other_fields i
    ∧ Model_delete storage (i, w)
      = match delete_each storage (hook_names i) (resources w) with
        | (asked, res, None) =>
            (Return (),
             (i', World res
                    (trace w ++ (StorageDelete <$> asked)
                     ++ [RowDelete Media (AbstractMedia.id i)])))
        | (asked, res, Some e) =>
            (Raise e,
             (i', World res (trace w ++ (StorageDelete <$> asked))))
        end.
Proof.
  intros Hcls. rewrite Model_delete_Media_seq by done.
  destruct (media_delete_each storage Media i w) as (i' & Hother & Hrun).
  exists i'. split; [done|]. unfold seq. rewrite Hrun.
  apply other_fields_cls_id in Hother as [Hcls' Hid'].
  destruct (delete_each storage (hook_names i) (resources w))
    as [[asked res] [e|]]; simpl; [done|].
  unfold log. cbn [resources trace].
  by rewrite Hcls', Hid', Hcls, <- app_assoc.
Qed.

Lemma Model_delete_trace_witness :
  ∃ i',
    other_fields i'
    = other_fields (sample_media Media (Some "media/clip.mp4")
                      (Some "media_thumbnails/clip.jpg"))
    ∧ Model_delete readonly_storage
        (sample_media Media (Some "media/clip.mp4")
           (Some "media_thumbnails/clip.jpg"), sample_world)
      = match delete_each readonly_storage
                (hook_names (sample_media Media (Some "media/clip.mp4")
                               (Some "media_thumbnails/clip.jpg")))
                (resources sample_world) with
        | (asked, res, None) =>
            (Return (),
             (i', World res
                    (trace sample_world ++ (StorageDelete <$> asked)
                     ++ [RowDelete Media 7])))
        | (asked, res, Some e) =>
            (Raise e,
             (i', World res (trace sample_world ++ (StorageDelete <$> asked))))
        end.
Proof.
  apply (Model_delete_trace readonly_storage
           (sample_media Media (Some "media/clip.mp4")
              (Some "media_thumbnails/clip.jpg")) sample_world).
  reflexivity.
Defined.

(** On the backend that cannot delete, deleting a record raises after the
    one call for the file, and the row stays. *)
Example Model_delete_readonly :
  (Model_delete readonly_storage
     (sample_media Media (Some "media/clip.mp4")
        (Some "media_thumbnails/clip.jpg"), sample_world)).1
  = Raise NotImplementedError
  ∧ trace (Model_delete readonly_storage
             (sample_media Media (Some "media/clip.mp4")
                (Some "media_thumbnails/clip.jpg"), sample_world)).2.2
    = [StorageDelete "media/clip.mp4"].
Proof. split; reflexivity. Qed.

(** ** Deleting a record that has a file and no thumbnail *)




(** ** sources of a record without file *)

(** C8: for a record whose file attribute holds no file (an empty name, or
    [None] as the hook leaves it), [sources] raises [ValueError] although
    the index route is configured: the entry with the fallback address is
    not returned. *)
Theorem sources_without_file_raises :
  sources (plain_storage "/m/") guess_type_by_ext reverse_urlconf
    (sample_media Media (Some "") (Some "")) = Raise ValueError
  ∧ sources (plain_storage "/m/") guess_type_by_ext reverse_urlconf
      (sample_media Media None None) = Raise ValueError
  ∧ reverse_urlconf "chunked_media:index" = Return "/admin/media/".
Proof. repeat split. Qed.
